(** * Verification of the MCQ generator: the AI gateway ([services/geminiService.ts]),
    the application state machine ([App.tsx]) and the quiz card ([components/McqCard.tsx]).

    The program is TypeScript/React.  We embed it shallowly:
    - JSON values produced by [JSON.parse] are the inductive [json];
    - thrown values are [exn] ([JsError msg] for [Error] instances);
    - the service functions run in a small writer/error monad [M] that logs every
      request sent to the hosted model, so that "no network call" is observable;
    - React state is a record, each event handler a function on it, and the
      reachable states are generated by a step relation whose enabled actions
      follow what the screens render. *)

From Stdlib Require Import String Ascii ZArith Lia.
From stdpp Require Import base list gmap strings.
From Stdlib Require Import Permutation.

Open Scope string_scope.
Set Warnings "-register-all".

(* ------------------------------------------------------------------ *)
(** ** JavaScript values and strings *)

Module Js.

(** A value produced by [JSON.parse].  Numbers are kept as integers. *)
Inductive json :=
| JNull
| JBool (b : bool)
| JNum (n : Z)
| JStr (s : string)
| JArr (xs : list json)
| JObj (fields : list (string * json)).

(** A thrown value: an [Error] instance with its [message], or anything else. *)
Inductive exn :=
| JsError (message : string)
| JsThrown.

(** JS truthiness of a property read; [None] is [undefined]. *)
Definition truthy (v : option json) : bool :=
  match v with
  | None | Some JNull => false
  | Some (JBool b) => b
  | Some (JNum n) => negb (Z.eqb n 0)
  | Some (JStr s) => negb (String.eqb s "")
  | Some (JArr _) | Some (JObj _) => true
  end.

(** [SameValueZero] (used by [Array.prototype.includes]) between two nodes of a
    parsed JSON tree: primitives compare by value; arrays and objects compare by
    reference, and two positions of a freshly parsed tree are never the same
    reference. *)
Definition same_value_zero (a b : json) : bool :=
  match a, b with
  | JNull, JNull => true
  | JBool x, JBool y => Bool.eqb x y
  | JNum x, JNum y => Z.eqb x y
  | JStr x, JStr y => String.eqb x y
  | _, _ => false
  end.

(** [xs.includes(v)]; a JSON array holds no [undefined]. *)
Definition includes (xs : list json) (v : option json) : bool :=
  match v with
  | None => false
  | Some a => existsb (same_value_zero a) xs
  end.

Fixpoint assoc (k : string) (fs : list (string * json)) : option json :=
  match fs with
  | [] => None
  | (k', v) :: fs' => if String.eqb k k' then Some v else assoc k fs'
  end.

(** Property read [v.k]: reading from [null] throws a [TypeError]; primitives and
    arrays have no own property named like the MCQ fields. *)
Definition get_prop (v : json) (k : string) : exn + option json :=
  match v with
  | JNull => inl (JsError ("Cannot read properties of null (reading '" ++ k ++ "')"))
  | JObj fs => inr (assoc k fs)
  | _ => inr None
  end.

(** [Array.prototype.filter] with a callback that may throw: elements are visited
    in order and the first exception aborts the whole call. *)
Fixpoint filter (p : json -> exn + bool) (xs : list json) : exn + list json :=
  match xs with
  | [] => inr []
  | x :: xs' =>
      match p x with
      | inl e => inl e
      | inr b =>
          match filter p xs' with
          | inl e => inl e
          | inr ys => inr (if b then x :: ys else ys)
          end
      end
  end.

(** [s.includes(pat)] on strings. *)
Fixpoint str_includes (s pat : string) : bool :=
  String.prefix pat s ||
  match s with
  | EmptyString => false
  | String _ s' => str_includes s' pat
  end.

(** White space removed by [String.prototype.trim], on 8-bit code units. *)
Definition is_space (c : ascii) : bool :=
  let n := nat_of_ascii c in
  (Nat.leb 9 n && Nat.leb n 13) || Nat.eqb n 32 || Nat.eqb n 160.

Fixpoint trim_start (s : string) : string :=
  match s with
  | EmptyString => EmptyString
  | String c s' => if is_space c then trim_start s' else s
  end.

Definition str_rev (s : string) : string :=
  string_of_list_ascii (rev (list_ascii_of_string s)).

(** [s.trim()]. *)
Definition trim (s : string) : string := str_rev (trim_start (str_rev (trim_start s))).

(** [l.join(sep)]. *)
Fixpoint join (sep : string) (l : list string) : string :=
  match l with
  | [] => ""
  | [x] => x
  | x :: l' => x ++ sep ++ join sep l'
  end.

(** [l.indexOf(x)]: the first index holding [x], or [-1]. *)
Fixpoint indexOf (l : list string) (x : string) : Z :=
  match l with
  | [] => (-1)%Z
  | y :: l' =>
      if String.eqb y x then 0%Z
      else let r := indexOf l' x in if Z.ltb r 0 then (-1)%Z else (r + 1)%Z
  end.

(** [l[z]] for an integer index: [undefined] ([None]) outside the array. *)
Definition at_index (l : list string) (z : Z) : option string :=
  if Z.ltb z 0 then None else l !! Z.to_nat z.

(** The two-character string ["\n\n"]. *)
Definition newline2 : string :=
  String (ascii_of_nat 10) (String (ascii_of_nat 10) EmptyString).

End Js.

(* ------------------------------------------------------------------ *)
(** ** The AI gateway: [services/geminiService.ts] *)

Module Gemini.
Import Js.

(** A request sent through [ai.models.generateContent]. *)
Inductive request :=
| GenerateMcqs (text : string) (numQuestions : nat)
| TranslateReq (textToTranslate : string).

(** Service computations: the requests sent to the model, in order, and the
    result or the thrown value. *)
Definition M (A : Type) : Type := (list request * (exn + A))%type.

Definition ret {A} (a : A) : M A := ([], inr a).
Definition throw {A} (e : exn) : M A := ([], inl e).
Definition bind {A B} (m : M A) (k : A -> M B) : M B :=
  match m with
  | (l, inl e) => (l, inl e)
  | (l, inr a) => let '(l', r) := k a in (app l l', r)
  end.
Definition lift {A} (r : exn + A) : M A := ([], r).
(** [try { m } catch (e) { h(e) }]. *)
Definition try_catch {A} (m : M A) (h : exn -> M A) : M A :=
  match m with
  | (l, inl e) => let '(l', r) := h e in (app l l', r)
  | ok => ok
  end.

Notation "x <- m ;; k" := (bind m (fun x => k))
  (at level 100, m at next level, right associativity).

Definition missing_key_message : string :=
  "Google Gemini API Key is missing. Please set it as an environment variable named 'API_KEY' in your deployment settings. For example, on Netlify, go to Site settings > Build & deploy > Environment, and add a new variable.".

Definition not_array_message : string := "API did not return a valid array of MCQs.".
Definition generation_failed_message : string :=
  "Failed to generate MCQs from the provided text.".
Definition translation_failed : string := "Translation failed.".

(** [error instanceof Error && (error.message.includes("API key") || error.message.includes("API Key"))] *)
Definition is_api_key_error (e : exn) : bool :=
  match e with
  | JsError m => str_includes m "API key" || str_includes m "API Key"
  | JsThrown => false
  end.

Section Service.

(** [process.env.API_KEY]; [None] is [undefined]. *)
Variable api_key : option string.
(** The hosted model: for a request, the [response.text] it yields, or what the
    call (or reading its text) throws. *)
Variable generateContent : request -> exn + string.
(** [JSON.parse]. *)
Variable JSON_parse : string -> exn + json.

(** [getAiInstance]: fails fast when the key is missing or empty. *)
Definition getAiInstance : M unit :=
  match api_key with
  | Some k => if String.eqb k "" then throw (JsError missing_key_message) else ret tt
  | None => throw (JsError missing_key_message)
  end.

Definition call (r : request) : M string := ([r], generateContent r).

(** The filter callback of [generateMcqsFromText] (lines 70-76). *)
Definition mcq_check (mcq : json) : exn + bool :=
  match get_prop mcq "question" with
  | inl e => inl e
  | inr q =>
      if negb (truthy q) then inr false else
      match get_prop mcq "options" with
      | inl e => inl e
      | inr (Some (JArr opts)) =>
          if negb (Nat.ltb 0 (length opts)) then inr false else
          match get_prop mcq "answer" with
          | inl e => inl e
          | inr a => if negb (truthy a) then inr false else inr (includes opts a)
          end
      | inr _ => inr false
      end
  end.

Definition generateMcqsFromText (text : string) (numQuestions : nat) : M (list json) :=
  try_catch
    (_ <- getAiInstance ;;
     response_text <- call (GenerateMcqs text numQuestions) ;;
     generatedMcqs <- lift (JSON_parse (trim response_text)) ;;
     match generatedMcqs with
     | JArr xs => lift (filter mcq_check xs)
     | _ => throw (JsError not_array_message)
     end)
    (fun error =>
       if is_api_key_error error then throw error
       else throw (JsError generation_failed_message)).

Definition translateText (textToTranslate : string) : M string :=
  if String.eqb textToTranslate "" then ret "" else
  try_catch
    (_ <- getAiInstance ;;
     response_text <- call (TranslateReq textToTranslate) ;;
     ret (trim response_text))
    (fun error =>
       if is_api_key_error error then throw error
       else ret translation_failed).

End Service.

End Gemini.

(* ------------------------------------------------------------------ *)
(** ** The application: [App.tsx] (src/unnamed/part_000) *)

Module App.
Import Js.

(** [MCQ] from [types.ts]. *)
Record MCQ := mkMCQ { question : string; options : list string; answer : string }.

(** A selected [File]. *)
Record file := mkFile { file_name : string; file_type : string }.

Inductive AppState := Welcome | Loading | Results.
Inductive ResultsMode := Study | Test.

#[global] Instance ResultsMode_eq_dec : EqDecision ResultsMode.
Proof. solve_decision. Defined.
#[global] Instance AppState_eq_dec : EqDecision AppState.
Proof. solve_decision. Defined.

(** The [useState] hooks of [App]; [testAnswers : Record<number, string>]. *)
Record app := mkApp {
  appState : AppState;
  resultsMode : ResultsMode;
  pdfFile : option file;
  numQuestions : nat;
  mcqs : list MCQ;
  error : option string;
  testAnswers : gmap nat string;
  showTestScore : bool
}.

Definition init : app := mkApp Welcome Study None 5 [] None ∅ false.

(** The state setters. *)
Definition setAppState v s := mkApp v s.(resultsMode) s.(pdfFile) s.(numQuestions) s.(mcqs) s.(error) s.(testAnswers) s.(showTestScore).
Definition setResultsMode v s := mkApp s.(appState) v s.(pdfFile) s.(numQuestions) s.(mcqs) s.(error) s.(testAnswers) s.(showTestScore).
Definition setPdfFile v s := mkApp s.(appState) s.(resultsMode) v s.(numQuestions) s.(mcqs) s.(error) s.(testAnswers) s.(showTestScore).
Definition setNumQuestions v s := mkApp s.(appState) s.(resultsMode) s.(pdfFile) v s.(mcqs) s.(error) s.(testAnswers) s.(showTestScore).
Definition setMcqs v s := mkApp s.(appState) s.(resultsMode) s.(pdfFile) s.(numQuestions) v s.(error) s.(testAnswers) s.(showTestScore).
Definition setError v s := mkApp s.(appState) s.(resultsMode) s.(pdfFile) s.(numQuestions) s.(mcqs) v s.(testAnswers) s.(showTestScore).
Definition setTestAnswers v s := mkApp s.(appState) s.(resultsMode) s.(pdfFile) s.(numQuestions) s.(mcqs) s.(error) v s.(showTestScore).
Definition setShowTestScore v s := mkApp s.(appState) s.(resultsMode) s.(pdfFile) s.(numQuestions) s.(mcqs) s.(error) s.(testAnswers) v.

Definition handleFileChange (f : option file) (s : app) : app :=
  match f with
  | Some fl =>
      if String.eqb fl.(file_type) "application/pdf"
      then setError None (setPdfFile (Some fl) s)
      else setError (Some "Please select a valid PDF file.") (setPdfFile None s)
  | None => setError (Some "Please select a valid PDF file.") (setPdfFile None s)
  end.

(** [extractTextFromPdf] (lines 35-46).  The document as pdf.js loads it: either
    the error [getDocument] rejects with, or for each page [1..numPages] the
    [str] fields of its text items, in order. *)
Fixpoint extract_pages (pages : list (list string)) (fullText : string) : string :=
  match pages with
  | [] => fullText
  | items :: pages' => extract_pages pages' (fullText ++ (join " " items ++ newline2))
  end.

Definition extractTextFromPdf (pdf : exn + list (list string)) : exn + string :=
  match pdf with
  | inl e => inl e
  | inr pages => inr (extract_pages pages "")
  end.

(** Calls made by [handleSubmit] to its asynchronous collaborators. *)
Inductive app_call :=
| CallExtract (f : file)
| CallGenerate (text : string) (numQuestions : nat).

Definition too_short_message : string :=
  "Text extracted from PDF is too short. Please use a more content-rich document.".

(** [e.message || 'Failed to generate questions.'] *)
Definition message_of (e : exn) : string :=
  match e with
  | JsError m => if String.eqb m "" then "Failed to generate questions." else m
  | JsThrown => "Failed to generate questions."
  end.

(** The synchronous part of [handleSubmit], up to its first [await] (lines 48-59). *)
Definition handleSubmit_sync (s : app) : app :=
  match s.(pdfFile) with
  | None => setError (Some "Please select a PDF file first.") s
  | Some _ =>
      setTestAnswers ∅ (setShowTestScore false (setMcqs [] (setError None (setAppState Loading s))))
  end.

(** The [catch] block of [handleSubmit] (lines 70-74). *)
Definition handleSubmit_fail (e : exn) (s : app) : app :=
  setAppState Welcome (setError (Some ("An error occurred: " ++ message_of e)) s).

(** The rest of the [try] block (lines 61-69), once the [pdfFile] and
    [numQuestions] captured at submission are known.  [extractTextFromPdf] and
    [generateMcqsFromText] are given by the values their promises settle with. *)
Definition handleSubmit_resume (extractTextFromPdf : file -> exn + string)
    (generateMcqsFromText : string -> nat -> exn + list MCQ)
    (f : file) (n : nat) (s : app) : list app_call * app :=
  match extractTextFromPdf f with
  | inl e => ([CallExtract f], handleSubmit_fail e s)
  | inr text =>
      if Nat.ltb (String.length (trim text)) 100
      then ([CallExtract f], handleSubmit_fail (JsError too_short_message) s)
      else
        match generateMcqsFromText text n with
        | inl e => ([CallExtract f; CallGenerate text n], handleSubmit_fail e s)
        | inr generated =>
            ([CallExtract f; CallGenerate text n],
             setResultsMode Study (setAppState Results (setMcqs generated s)))
        end
  end.

(** [handleSubmit] from submission to the settlement of its promise. *)
Definition handleSubmit (extractTextFromPdf : file -> exn + string)
    (generateMcqsFromText : string -> nat -> exn + list MCQ) (s : app) : list app_call * app :=
  match s.(pdfFile) with
  | None => ([], handleSubmit_sync s)
  | Some f =>
      handleSubmit_resume extractTextFromPdf generateMcqsFromText f s.(numQuestions)
        (handleSubmit_sync s)
  end.

Definition handleTryAgain (s : app) : app :=
  setError None (setMcqs [] (setPdfFile None (setAppState Welcome s))).

Definition handleAnswerSelect (questionIndex : nat) (answer : string) (s : app) : app :=
  setTestAnswers (<[questionIndex := answer]> s.(testAnswers)) s.

Definition handleSubmitTest (s : app) : app := setShowTestScore true s.

(** The "Study Mode" and "Test Mode" buttons (lines 158 and 161). *)
Definition onStudyMode (s : app) : app := setShowTestScore false (setResultsMode Study s).
Definition onTestMode (s : app) : app := setResultsMode Test s.

(** [mcqs.reduce((score, mcq, index) => score + (testAnswers[index] === mcq.answer ? 1 : 0), 0)],
    one step of the reduction per element. *)
Fixpoint calculateScore_reduce (testAnswers : gmap nat string) (ms : list MCQ)
    (index score : nat) : nat :=
  match ms with
  | [] => score
  | mcq :: ms' =>
      calculateScore_reduce testAnswers ms' (S index)
        (score + (if decide (testAnswers !! index = Some mcq.(answer)) then 1 else 0))
  end.

Definition calculateScore (mcqs : list MCQ) (testAnswers : gmap nat string) : nat :=
  calculateScore_reduce testAnswers mcqs 0 0.

End App.

(* ------------------------------------------------------------------ *)
(** ** The quiz card: [components/McqCard.tsx] *)

Module Card.
Import Js App.

(** [Promise.all] over [n] promises: the [i]-th settles with [settle i], and
    [order] is the order in which they complete.  Each fulfilment is stored at
    the index of its promise; the first rejection to occur rejects the whole
    batch; [None] means the batch is still pending. *)
Section PromiseAll.
Context {A : Type}.

Fixpoint run_settlements (settle : nat -> exn + A) (order : list nat)
    (slots : list (option A)) : exn + list (option A) :=
  match order with
  | [] => inr slots
  | i :: order' =>
      match settle i with
      | inl e => inl e
      | inr v => run_settlements settle order' (<[i := Some v]> slots)
      end
  end.

Fixpoint all_filled (slots : list (option A)) : option (list A) :=
  match slots with
  | [] => Some []
  | Some v :: slots' => match all_filled slots' with Some vs => Some (v :: vs) | None => None end
  | None :: _ => None
  end.

Definition promise_all (n : nat) (settle : nat -> exn + A) (order : list nat)
    : option (exn + list A) :=
  match run_settlements settle order (replicate n None) with
  | inl e => Some (inl e)
  | inr slots =>
      match all_filled slots with
      | Some vs => Some (inr vs)
      | None => None
      end
  end.

End PromiseAll.

Record Translation := mkTranslation { t_question : string; t_options : list string }.

(** The card's own [useState] hooks. *)
Record card_state := mkCard {
  translation : option Translation;
  isTranslating : bool;
  showTranslation : bool
}.

(** The texts sent by [handleTranslate], in submission order. *)
Definition translate_requests (mcq : MCQ) : list string := mcq.(question) :: mcq.(options).

(** [handleTranslate] (lines 25-45).  The [i]-th call [translateText(text)] is
    made with key [api_key] and sees the model outcome [gc i]; [order] is the
    completion order of the calls. *)
Definition handleTranslate (api_key : option string)
    (gc : nat -> Gemini.request -> exn + string) (order : list nat)
    (mcq : MCQ) (c : card_state) : card_state :=
  match c.(translation) with
  | Some _ => mkCard c.(translation) c.(isTranslating) (negb c.(showTranslation))
  | None =>
      let reqs := translate_requests mcq in
      let settle i := snd (Gemini.translateText api_key (gc i) (default "" (reqs !! i))) in
      match promise_all (length reqs) settle order with
      | Some (inr (tQuestion :: tOptions)) =>
          mkCard (Some (mkTranslation tQuestion tOptions)) false true
      | Some (inr []) => mkCard (Some (mkTranslation "" [])) false true
      | Some (inl _) => mkCard c.(translation) false c.(showTranslation)
      | None => mkCard c.(translation) true c.(showTranslation)
      end
  end.

Definition green_classes : string := "bg-green-100 border-green-500 text-green-800 font-semibold".
Definition red_classes : string := "bg-red-100 border-red-500 text-red-800".
Definition grey_classes : string := "border-slate-300 text-slate-500 bg-slate-50".
Definition blue_classes : string := "bg-blue-100 border-blue-500".
Definition plain_classes : string := "border-slate-300 hover:bg-slate-200 hover:border-slate-400".

Definition getOptionClasses (mcq : MCQ) (userAnswer : option string) (showAnswer : bool)
    (option : string) : string :=
  let isSelected := bool_decide (userAnswer = Some option) in
  if showAnswer then
    if String.eqb option mcq.(answer) then green_classes
    else if isSelected && negb (String.eqb option mcq.(answer)) then red_classes
    else grey_classes
  else if isSelected then blue_classes
  else plain_classes.

(** A rendered option button. *)
Record option_button := mkButton { b_label : string; b_disabled : bool; b_classes : string }.

(** What [McqCard] renders that the claims look at: its option buttons and
    whether the "Correct Answer" box is shown. *)
Record card_view := mkView { v_buttons : list option_button; v_answer_box : bool }.

Definition McqCard (mcq : MCQ) (mode : ResultsMode) (userAnswer : option string)
    (showAnswer : bool) : card_view :=
  let isTestModeActive := bool_decide (mode = Test) && negb showAnswer in
  mkView
    (map (fun option => mkButton option (negb isTestModeActive)
                          (getOptionClasses mcq userAnswer showAnswer option))
         mcq.(options))
    (showAnswer && bool_decide (mode = Study)).

(** The translated correct answer shown in study mode (line 106):
    [translation.options[mcq.options.indexOf(mcq.answer)]]. *)
Definition translated_answer (mcq : MCQ) (tr : Translation) : option string :=
  at_index tr.(t_options) (indexOf mcq.(options) mcq.(answer)).

End Card.

(* ------------------------------------------------------------------ *)
(** ** The results screen and the reachable states of [App] *)

Module Screen.
Import Js App Card.

(** The cards of [renderResultsScreen] (lines 179-189). *)
Definition result_cards (s : app) : list card_view :=
  imap (fun index mcq =>
          McqCard mcq s.(resultsMode) (s.(testAnswers) !! index)
            (bool_decide (s.(resultsMode) = Study) || s.(showTestScore)))
       s.(mcqs).

(** The "Submit Test" button is rendered (line 191). *)
Definition submit_test_shown (s : app) : bool :=
  bool_decide (s.(resultsMode) = Test) && negb s.(showTestScore) && Nat.ltb 0 (length s.(mcqs)).

(** One user event or promise settlement, enabled by what the current screen renders. *)
Inductive step : app -> app -> Prop :=
| step_file_change s f :
    s.(appState) = Welcome -> step s (handleFileChange f s)
| step_num_questions s n :
    s.(appState) = Welcome -> 3 <= n <= 15 -> step s (setNumQuestions n s)
| step_submit s :
    s.(appState) = Welcome -> step s (handleSubmit_sync s)
| step_submit_settled s f extract generate :
    s.(appState) = Loading -> s.(pdfFile) = Some f ->
    step s (snd (handleSubmit_resume extract generate f s.(numQuestions) s))
| step_study_mode s :
    s.(appState) = Results -> step s (onStudyMode s)
| step_test_mode s :
    s.(appState) = Results -> step s (onTestMode s)
| step_try_again s :
    s.(appState) = Results -> step s (handleTryAgain s)
| step_answer_select s i mcq option :
    s.(appState) = Results -> s.(mcqs) !! i = Some mcq -> In option mcq.(options) ->
    s.(resultsMode) = Test -> s.(showTestScore) = false ->
    step s (handleAnswerSelect i option s)
| step_submit_test s :
    s.(appState) = Results -> submit_test_shown s = true -> step s (handleSubmitTest s).

Inductive reachable : app -> Prop :=
| reach_init : reachable init
| reach_step s s' : reachable s -> step s s' -> reachable s'.

End Screen.

(* ------------------------------------------------------------------ *)
(** ** Helper lemmas *)

Module Facts.
Import Js.

Lemma filter_sound (p : json -> exn + bool) xs ys y :
  filter p xs = inr ys -> In y ys -> In y xs /\ p y = inr true.
Proof.
  revert ys. induction xs as [|x xs IH]; simpl; intros ys Hf Hy.
  - injection Hf as <-. destruct Hy.
  - destruct (p x) as [e|b] eqn:Hp; [discriminate|].
    destruct (filter p xs) as [e|ys'] eqn:Hr; [discriminate|].
    injection Hf as <-.
    destruct b; [destruct Hy as [<-|Hy]|].
    + auto.
    + destruct (IH ys' eq_refl Hy). auto.
    + destruct (IH ys' eq_refl Hy). auto.
Qed.

Lemma same_value_zero_eq a b : same_value_zero a b = true -> a = b.
Proof.
  destruct a, b; simpl; try discriminate; intros H; try reflexivity.
  - apply Bool.eqb_prop in H. by subst.
  - apply Z.eqb_eq in H. by subst.
  - apply String.eqb_eq in H. by subst.
Qed.

Lemma includes_in xs a : includes xs a = true -> exists v, a = Some v /\ In v xs.
Proof.
  destruct a as [v|]; simpl; [|discriminate]. intros H.
  apply existsb_exists in H as (w & Hw & Heq).
  apply same_value_zero_eq in Heq. subst. eauto.
Qed.

Lemma length_trim_start s : String.length (trim_start s) <= String.length s.
Proof. induction s as [|c s IH]; simpl; [lia|]. destruct (is_space c); simpl; lia. Qed.

Lemma length_str_rev s : String.length (str_rev s) = String.length s.
Proof.
  unfold str_rev.
  assert (Hl : forall l, String.length (string_of_list_ascii l) = List.length l).
  { induction l; simpl; auto. }
  assert (Hs : forall s, List.length (list_ascii_of_string s) = String.length s).
  { induction s0; simpl; auto. }
  rewrite Hl, length_rev, Hs. reflexivity.
Qed.

Lemma length_trim s : String.length (trim s) <= String.length s.
Proof.
  unfold trim. rewrite length_str_rev.
  pose proof (length_trim_start (str_rev (trim_start s))).
  rewrite length_str_rev in H. pose proof (length_trim_start s). lia.
Qed.

End Facts.

(* ------------------------------------------------------------------ *)
(** ** The claims *)

Module Claims.
Import Js.

(** Closes a branch where [generateMcqsFromText] threw while the goal assumes it returned. *)
Ltac gen_fails :=
  match goal with
  | |- context [Gemini.is_api_key_error ?e] => destruct (Gemini.is_api_key_error e)
  | _ => idtac
  end; simpl; intros; discriminate.

(** The validation the spec states for one record of the model's response:
    [question] present and non-empty, [options] a non-empty array, [answer]
    present and equal by value to one element of [options]. *)
Definition spec_valid_record (mcq : json) : Prop :=
  exists q opts a,
    get_prop mcq "question" = inr (Some q) /\ truthy (Some q) = true /\
    get_prop mcq "options" = inr (Some (JArr opts)) /\ opts <> [] /\
    get_prop mcq "answer" = inr (Some a) /\ truthy (Some a) = true /\
    In a opts.

(** C1: every MCQ returned by [generateMcqsFromText] is a record of the parsed
    response that passes the validation (question present and non-empty, options a
    non-empty array, answer present and equal to one of the options); so a record
    failing any check is not in the result. *)
Theorem generate_results_are_valid api_key generateContent JSON_parse text n calls result :
  Gemini.generateMcqsFromText api_key generateContent JSON_parse text n = (calls, inr result) ->
  exists response_text xs,
    generateContent (Gemini.GenerateMcqs text n) = inr response_text /\
    JSON_parse (trim response_text) = inr (JArr xs) /\
    (forall mcq, In mcq result -> In mcq xs /\ spec_valid_record mcq) /\
    (forall mcq, ~ spec_valid_record mcq -> ~ In mcq result).
Proof.
  unfold Gemini.generateMcqsFromText, Gemini.try_catch, Gemini.bind, Gemini.getAiInstance,
    Gemini.call, Gemini.lift.
  destruct api_key as [k|]; [destruct (String.eqb k "")|]; simpl;
    try (gen_fails).
  destruct (generateContent (Gemini.GenerateMcqs text n)) as [e|rt] eqn:Hg; simpl;
    [gen_fails|].
  destruct (JSON_parse (trim rt)) as [e|v] eqn:Hp; simpl;
    [gen_fails|].
  assert (Hfil : forall xs, filter Gemini.mcq_check xs = inr result ->
     (forall mcq, In mcq result -> In mcq xs /\ spec_valid_record mcq)).
  { intros xs Hf mcq Hin. destruct (Facts.filter_sound _ _ _ _ Hf Hin) as [Hx Hc].
    split; [exact Hx|]. unfold Gemini.mcq_check in Hc.
    destruct (get_prop mcq "question") as [e|q] eqn:Hq; [discriminate|].
    destruct (truthy q) eqn:Htq; simpl in Hc; [|discriminate].
    destruct (get_prop mcq "options") as [e|[[| | | | opts |]|]] eqn:Ho; try discriminate.
    destruct (Nat.ltb 0 (length opts)) eqn:Hlen; simpl in Hc; [|discriminate].
    destruct (get_prop mcq "answer") as [e|a] eqn:Ha; [discriminate|].
    destruct (truthy a) eqn:Hta; simpl in Hc; [|discriminate].
    injection Hc as Hc. destruct (Facts.includes_in _ _ Hc) as (av & -> & Hav).
    destruct q as [qv|]; [|discriminate].
    exists qv, opts, av. repeat split; auto.
    intros ->. discriminate. }
  destruct v; simpl; try (gen_fails).
  destruct (filter Gemini.mcq_check xs) as [e|ys] eqn:Hf; simpl;
    [gen_fails|].
  intros H. injection H as _ <-.
  exists rt, xs. split; [reflexivity|]. split; [exact Hp|].
  pose proof (Hfil xs Hf) as Hall. split; [exact Hall|].
  intros mcq Hnv Hin. apply Hnv. apply (Hall mcq Hin).
Qed.

End Claims.

Module Claims2.
Import App.

(** The score as the spec words it: the number of question indices whose stored
    answer equals that question's correct answer. *)
Definition spec_score (mcqs : list MCQ) (ta : gmap nat string) : nat :=
  length (List.filter
    (fun i => match mcqs !! i with
              | Some m => bool_decide (ta !! i = Some m.(answer))
              | None => false
              end)
    (seq 0 (length mcqs))).

Lemma filter_all_false {A} (f : A -> bool) l :
  (forall x, In x l -> f x = false) -> List.filter f l = [].
Proof.
  induction l as [|x l IH]; simpl; intros H; [done|].
  rewrite H by auto. apply IH. auto.
Qed.

Lemma filter_all_true {A} (f : A -> bool) l :
  (forall x, In x l -> f x = true) -> List.filter f l = l.
Proof.
  induction l as [|x l IH]; simpl; intros H; [done|].
  rewrite H by auto. f_equal. apply IH. auto.
Qed.

Lemma calculateScore_reduce_count ta ms k sc :
  calculateScore_reduce ta ms k sc =
  sc + length (List.filter
    (fun i => match ms !! (i - k) with
              | Some m => bool_decide (ta !! i = Some m.(answer))
              | None => false
              end)
    (seq k (length ms))).
Proof.
  revert k sc. induction ms as [|m ms IH]; intros k sc; simpl; [lia|].
  rewrite IH. simpl. rewrite Nat.sub_diag. simpl.
  rewrite (List.filter_ext_in
    (fun i => match (m :: ms) !! (i - k) with
              | Some m0 => bool_decide (ta !! i = Some m0.(answer))
              | None => false
              end)
    (fun i => match ms !! (i - S k) with
              | Some m0 => bool_decide (ta !! i = Some m0.(answer))
              | None => false
              end)).
  2:{ intros i Hi. apply in_seq in Hi.
      replace (i - k) with (S (i - S k)) by lia. reflexivity. }
  destruct (decide (ta !! k = Some (answer m))) as [E|E];
    [rewrite bool_decide_true by done | rewrite bool_decide_false by done]; simpl; lia.
Qed.

(** C2: the score is the number of question indices whose stored answer equals the
    correct answer; it is 0 for an empty AnswerSet (whatever the quiz), and the
    quiz length when every question's stored answer is its MCQ's answer. *)
Theorem calculateScore_spec (mcqs : list MCQ) (ta : gmap nat string) :
  calculateScore mcqs ta = spec_score mcqs ta /\
  calculateScore mcqs ∅ = 0 /\
  ((forall i m, mcqs !! i = Some m -> ta !! i = Some m.(answer)) ->
   calculateScore mcqs ta = length mcqs).
Proof.
  assert (Hc : forall ta', calculateScore mcqs ta' = spec_score mcqs ta').
  { intros ta'. unfold calculateScore, spec_score.
    rewrite calculateScore_reduce_count. simpl.
    f_equal. apply List.filter_ext. intros i. rewrite Nat.sub_0_r. reflexivity. }
  split; [apply Hc|]. split.
  - rewrite Hc. unfold spec_score. rewrite filter_all_false; [done|].
    intros i _. destruct (mcqs !! i); [|done].
    rewrite lookup_empty. by apply bool_decide_eq_false.
  - intros Hall. rewrite Hc. unfold spec_score. rewrite filter_all_true.
    + apply length_seq.
    + intros i Hi. apply in_seq in Hi.
      destruct (mcqs !! i) as [m|] eqn:Hm.
      * apply bool_decide_eq_true. by apply Hall.
      * apply lookup_ge_None in Hm. lia.
Qed.

End Claims2.

Module Claims3.
Import Js App Card Screen.

(** A session: a PDF is picked, generation succeeds with one question, the user
    switches to test mode and answers question 0. *)
Definition demo_pdf : file := mkFile "notes.pdf" "application/pdf".
Definition demo_text : string :=
  "Photosynthesis is the process by which green plants use sunlight, water and carbon dioxide to make glucose and release oxygen.".
Definition demo_mcq : MCQ :=
  mkMCQ "What does photosynthesis release?" ["Oxygen"; "Nitrogen"; "Helium"; "Argon"] "Oxygen".
Definition demo_extract (f : file) : exn + string := inr demo_text.
Definition demo_generate (text : string) (n : nat) : exn + list MCQ := inr [demo_mcq].

Definition demo_s1 : app := handleFileChange (Some demo_pdf) init.
Definition demo_s2 : app := handleSubmit_sync demo_s1.
Definition demo_s3 : app :=
  snd (handleSubmit_resume demo_extract demo_generate demo_pdf demo_s2.(numQuestions) demo_s2).
Definition demo_s4 : app := onTestMode demo_s3.
Definition demo_s5 : app := handleAnswerSelect 0 "Oxygen" demo_s4.

Lemma demo_s5_reachable : reachable demo_s5.
Proof.
  assert (R1 : reachable demo_s1).
  { eapply reach_step; [apply reach_init | apply step_file_change; reflexivity]. }
  assert (R2 : reachable demo_s2).
  { eapply reach_step; [exact R1 | apply step_submit; reflexivity]. }
  assert (R3 : reachable demo_s3).
  { eapply reach_step; [exact R2 | eapply step_submit_settled; reflexivity]. }
  assert (R4 : reachable demo_s4).
  { eapply reach_step; [exact R3 | apply step_test_mode; reflexivity]. }
  eapply reach_step; [exact R4|].
  eapply step_answer_select with (mcq := demo_mcq); try reflexivity. simpl. auto.
Qed.

(** C3 (fails): after "Start Over" from a reachable results screen in which
    question 0 was answered, the app is on the welcome screen with no file and no
    quiz, but the AnswerSet still holds the answer to question 0. *)
Theorem start_over_keeps_answer_set :
  reachable demo_s5 /\ demo_s5.(appState) = Results /\
  (handleTryAgain demo_s5).(appState) = Welcome /\
  (handleTryAgain demo_s5).(pdfFile) = None /\
  (handleTryAgain demo_s5).(mcqs) = [] /\
  (handleTryAgain demo_s5).(error) = None /\
  (handleTryAgain demo_s5).(testAnswers) = <[0 := "Oxygen"]> ∅ /\
  (handleTryAgain demo_s5).(testAnswers) <> ∅.
Proof.
  split; [apply demo_s5_reachable|].
  repeat split; try reflexivity.
  intros H. pose proof (f_equal (lookup 0) H) as H0. simpl in H0.
  rewrite lookup_insert_eq, lookup_empty in H0. discriminate.
Qed.

(** C5: when the text extracted from the submitted file is shorter than 100
    characters, [handleSubmit] never calls [generateMcqsFromText], and the session
    ends on the welcome screen with the content-too-short message set. *)
Theorem short_text_skips_generation extract generate (s : app) f text :
  s.(pdfFile) = Some f -> extract f = inr text -> String.length text < 100 ->
  let '(calls, s') := handleSubmit extract generate s in
  calls = [CallExtract f] /\
  (forall t n, ~ In (CallGenerate t n) calls) /\
  s'.(appState) = Welcome /\
  s'.(error) = Some ("An error occurred: " ++ too_short_message).
Proof.
  intros Hf He Hlen. unfold handleSubmit, handleSubmit_resume. rewrite Hf, He.
  pose proof (Facts.length_trim text) as Ht.
  replace (Nat.ltb (String.length (trim text)) 100) with true
    by (symmetry; apply Nat.ltb_lt; lia).
  split; [reflexivity|]. split; [|split; reflexivity].
  intros t n [H|H]; [discriminate|destruct H].
Qed.

(** C5, at a concrete input. *)
Lemma short_text_skips_generation_witness :
  let s := handleFileChange (Some demo_pdf) init in
  let '(calls, s') := handleSubmit (fun _ => inr "Too short.") demo_generate s in
  calls = [CallExtract demo_pdf] /\
  (forall t n, ~ In (CallGenerate t n) calls) /\
  s'.(appState) = Welcome /\
  s'.(error) = Some ("An error occurred: " ++ too_short_message).
Proof.
  exact (short_text_skips_generation (fun _ => inr "Too short.") demo_generate
           (handleFileChange (Some demo_pdf) init) demo_pdf "Too short."
           eq_refl eq_refl ltac:(simpl; lia)).
Defined.

(** All of [App]'s state apart from the results mode and the submitted flag. *)
Definition same_except_mode (s t : app) : Prop :=
  t.(appState) = s.(appState) /\ t.(pdfFile) = s.(pdfFile) /\
  t.(numQuestions) = s.(numQuestions) /\ t.(mcqs) = s.(mcqs) /\
  t.(error) = s.(error) /\ t.(testAnswers) = s.(testAnswers).

(** C8: the "Study Mode" and "Test Mode" buttons change only the mode and the
    submitted flag; toggling test, study, test leaves the AnswerSet and the quiz
    as they were. *)
Theorem mode_toggles_keep_answers (s : app) :
  same_except_mode s (onStudyMode s) /\
  same_except_mode s (onTestMode s) /\
  (onTestMode (onStudyMode s)).(testAnswers) = s.(testAnswers) /\
  (onTestMode (onStudyMode s)).(mcqs) = s.(mcqs) /\
  (onTestMode (onStudyMode s)).(resultsMode) = Test.
Proof. repeat split. Qed.

End Claims3.

Module Claims4.
Import Js App Card Screen.

(** The spec's visibility condition: [mode = study] or ([mode = test] and submitted). *)
Definition answers_visible (s : app) : bool :=
  match s.(resultsMode) with
  | Study => true
  | Test => s.(showTestScore)
  end.

(** C4: on the results screen, the card of a question whose answer is one of its
    options colours that option as the correct one exactly when the mode is study
    or the test was submitted, and its option buttons are then disabled; otherwise
    (test mode, not submitted) the buttons are enabled, every option is coloured
    only as selected or unselected, and the correct-answer box is hidden. *)
Theorem results_answer_visibility (s : app) (index : nat) (mcq : MCQ) :
  s.(mcqs) !! index = Some mcq -> In mcq.(answer) mcq.(options) ->
  exists v,
    result_cards s !! index = Some v /\
    (forall b, In b v.(v_buttons) -> b.(b_disabled) = answers_visible s) /\
    (answers_visible s = true ->
       exists b, In b v.(v_buttons) /\ b.(b_label) = mcq.(answer) /\
                 b.(b_classes) = green_classes) /\
    (answers_visible s = false ->
       v.(v_answer_box) = false /\
       forall b, In b v.(v_buttons) ->
         b.(b_classes) = blue_classes \/ b.(b_classes) = plain_classes).
Proof.
  intros Hm Hin. unfold result_cards. rewrite list_lookup_imap, Hm. simpl.
  eexists. split; [reflexivity|].
  unfold answers_visible, McqCard. simpl.
  destruct (resultsMode s), (showTestScore s); simpl;
    repeat split; try discriminate;
    try (intros b Hb; apply in_map_iff in Hb as (o & <- & _); reflexivity).
  all: first
    [ intros _; eexists; split;
        [apply in_map_iff; exists mcq.(answer); split; [reflexivity|exact Hin]|];
      split; [reflexivity|]; simpl; by rewrite String.eqb_refl
    | intros b Hb; apply in_map_iff in Hb as (o & <- & _); simpl;
      destruct (bool_decide _); auto ].
Qed.

(** C4, at the demo session in test mode before submission. *)
Lemma results_answer_visibility_witness :
  exists v,
    result_cards Claims3.demo_s5 !! 0 = Some v /\
    (forall b, In b v.(v_buttons) -> b.(b_disabled) = answers_visible Claims3.demo_s5) /\
    (answers_visible Claims3.demo_s5 = true ->
       exists b, In b v.(v_buttons) /\ b.(b_label) = Claims3.demo_mcq.(answer) /\
                 b.(b_classes) = green_classes) /\
    (answers_visible Claims3.demo_s5 = false ->
       v.(v_answer_box) = false /\
       forall b, In b v.(v_buttons) ->
         b.(b_classes) = blue_classes \/ b.(b_classes) = plain_classes).
Proof.
  apply (results_answer_visibility Claims3.demo_s5 0 Claims3.demo_mcq).
  - reflexivity.
  - simpl. auto.
Defined.

(** The submitted flag implies test mode, and nothing is submitted while loading. *)
Definition submitted_inv (s : app) : Prop :=
  (s.(showTestScore) = true -> s.(resultsMode) = Test) /\
  (s.(appState) = Loading -> s.(showTestScore) = false).

Lemma step_preserves_submitted_inv s s' :
  submitted_inv s -> step s s' -> submitted_inv s'.
Proof.
  intros Hinv Hs. revert Hinv.
  destruct Hs as
    [s f Ha|s n Ha Hn|s Ha|s f extract generate Ha Hf|s Ha|s Ha|s Ha
    |s i mcq option Ha Hm Ho Hmode Hsc|s Ha Hsh]; intros [Hi Hl].
  - unfold handleFileChange. repeat case_match; unfold submitted_inv; simpl;
      split; intros; auto; congruence.
  - unfold submitted_inv; simpl. split; intros; auto; congruence.
  - unfold handleSubmit_sync. case_match; unfold submitted_inv; simpl;
      split; intros; auto; congruence.
  - specialize (Hl Ha). unfold handleSubmit_resume.
    repeat case_match; unfold submitted_inv; simpl; split; intros; congruence.
  - unfold submitted_inv; simpl. split; intros; congruence.
  - unfold submitted_inv; simpl. split; intros; [reflexivity|congruence].
  - unfold submitted_inv; simpl. split; intros; auto; congruence.
  - unfold submitted_inv; simpl. split; intros; auto; congruence.
  - unfold submitted_inv, submit_test_shown in *; simpl.
    split; intros; [|congruence].
    destruct (resultsMode s); [discriminate|reflexivity].
Qed.


Lemma reachable_submitted_inv s : reachable s -> submitted_inv s.
Proof.
  induction 1 as [|s s' _ IH Hs].
  - split; discriminate.
  - exact (step_preserves_submitted_inv s s' IH Hs).
Qed.

(** C10: in every reachable state the submitted flag is set only in test mode,
    and the only step that sets it is a press of "Submit Test", rendered only in
    un-submitted test mode; switching to study mode and starting a generation
    clear it. *)
Theorem submitted_only_in_test_mode (s : app) :
  reachable s ->
  (s.(showTestScore) = true -> s.(resultsMode) = Test) /\
  (onStudyMode s).(showTestScore) = false /\
  (forall f, s.(pdfFile) = Some f -> (handleSubmit_sync s).(showTestScore) = false) /\
  (forall s', step s s' -> s.(showTestScore) = false -> s'.(showTestScore) = true ->
     s' = handleSubmitTest s /\ submit_test_shown s = true).
Proof.
  intros Hr. destruct (reachable_submitted_inv s Hr) as [Hi Hl]. split; [exact Hi|].
  split; [reflexivity|]. split; [intros f Hf; unfold handleSubmit_sync; by rewrite Hf|].
  intros s' Hs Hf Ht. revert Hf Ht.
  destruct Hs as
    [s f Ha|s n Ha Hn|s Ha|s f extract generate Ha Hf0|s Ha|s Ha|s Ha
    |s i mcq option Ha Hm Ho Hmode Hsc|s Ha Hsh]; intros Hf Ht.
  - unfold handleFileChange in Ht. repeat case_match; simpl in Ht; congruence.
  - simpl in Ht. congruence.
  - unfold handleSubmit_sync in Ht. case_match; simpl in Ht; congruence.
  - unfold handleSubmit_resume in Ht. repeat case_match; simpl in Ht; congruence.
  - simpl in Ht. discriminate.
  - simpl in Ht. congruence.
  - simpl in Ht. congruence.
  - simpl in Ht. congruence.
  - split; [reflexivity|exact Hsh].
Qed.

(** C10, at the reachable demo session. *)
Lemma submitted_only_in_test_mode_witness :
  reachable Claims3.demo_s5 /\
  (Claims3.demo_s5.(showTestScore) = true -> Claims3.demo_s5.(resultsMode) = Test) /\
  (onStudyMode Claims3.demo_s5).(showTestScore) = false /\
  (forall f, Claims3.demo_s5.(pdfFile) = Some f ->
     (handleSubmit_sync Claims3.demo_s5).(showTestScore) = false) /\
  (forall s', step Claims3.demo_s5 s' -> Claims3.demo_s5.(showTestScore) = false ->
     s'.(showTestScore) = true ->
     s' = handleSubmitTest Claims3.demo_s5 /\ submit_test_shown Claims3.demo_s5 = true).
Proof.
  split; [exact Claims3.demo_s5_reachable|].
  exact (submitted_only_in_test_mode Claims3.demo_s5 Claims3.demo_s5_reachable).
Defined.

End Claims4.

Module Claims5.
Import Js App Card.

Section PromiseAllFacts.
Context {A : Type}.

Lemma run_settlements_ok (settle : nat -> exn + A) (val : nat -> A) order slots :
  (forall i, In i order -> settle i = inr (val i)) ->
  exists slots',
    run_settlements settle order slots = inr slots' /\
    length slots' = length slots /\
    (forall i, i < length slots -> In i order -> slots' !! i = Some (Some (val i))) /\
    (forall i, ~ In i order -> slots' !! i = slots !! i).
Proof.
  revert slots. induction order as [|j order IH]; intros slots Hok; simpl.
  - exists slots. repeat split; auto. intros i _ [].
  - rewrite (Hok j (or_introl eq_refl)).
    assert (Hok' : forall i, In i order -> settle i = inr (val i)) by (intros i Hi; apply Hok; right; exact Hi).
    destruct (IH (<[j := Some (val j)]> slots) Hok') as (sl & Hrun & Hlen & Hin & Hout).
    rewrite length_insert in Hlen.
    exists sl. split; [exact Hrun|]. split; [exact Hlen|]. split.
    + intros i Hi [->|Hio].
      * destruct (in_dec Nat.eq_dec i order) as [Hio|Hio].
        -- apply Hin; [rewrite length_insert|]; auto.
        -- rewrite Hout by exact Hio. by apply list_lookup_insert_eq.
      * apply Hin; [rewrite length_insert|]; auto.
    + intros i Hni. rewrite Hout by (intros H; apply Hni; auto).
      apply list_lookup_insert_ne. intros ->. apply Hni. auto.
Qed.

Lemma all_filled_map (val : nat -> A) l :
  all_filled (map (fun i => Some (val i)) l) = Some (map val l).
Proof. induction l as [|i l IH]; simpl; [done|]. by rewrite IH. Qed.

Lemma promise_all_in_submission_order (n : nat) (settle : nat -> exn + A) (val : nat -> A) order :
  Permutation order (seq 0 n) ->
  (forall i, i < n -> settle i = inr (val i)) ->
  promise_all n settle order = Some (inr (map val (seq 0 n))).
Proof.
  intros Hp Hok. unfold promise_all.
  assert (Hord : forall i, In i order <-> i < n).
  { intros i. split; intros H.
    - apply (Permutation_in _ Hp) in H. apply in_seq in H. lia.
    - apply (Permutation_in _ (Permutation_sym Hp)). apply in_seq. lia. }
  destruct (run_settlements_ok settle val order (replicate n None)) as (sl & Hrun & Hlen & Hin & _).
  { intros i Hi. apply Hok. by apply Hord. }
  rewrite Hrun. rewrite length_replicate in Hlen, Hin.
  replace sl with (map (fun i => Some (val i)) (seq 0 n)).
  { by rewrite all_filled_map. }
  apply list_eq. intros i. rewrite list_lookup_fmap.
  destruct (decide (i < n)) as [Hi|Hi].
  - rewrite lookup_seq_lt by exact Hi. simpl.
    rewrite (Hin i) by (auto; by apply Hord). reflexivity.
  - rewrite (proj2 (lookup_ge_None _ _)) by (rewrite length_seq; lia).
    rewrite (proj2 (lookup_ge_None sl i)) by lia. reflexivity.
Qed.

End PromiseAllFacts.

(** The value the [i]-th [translateText(text)] call of a batch settles with. *)
Definition translated (api_key : option string) (gc : nat -> Gemini.request -> exn + string)
    (i : nat) (text : string) : exn + string :=
  snd (Gemini.translateText api_key (gc i) text).

(** C9: when a card without a cached translation is translated and every call of
    the batch fulfils, whatever the completion order of the calls, the resulting
    Translation has as [question] the result of the question's request and as
    [options[i]] the result of the request for [options[i]]. *)
Theorem translation_follows_submission_order api_key gc order (mcq : MCQ) c :
  c.(translation) = None ->
  Permutation order (seq 0 (S (length mcq.(options)))) ->
  (forall i text, translate_requests mcq !! i = Some text ->
     exists v, translated api_key gc i text = inr v) ->
  exists tr,
    (handleTranslate api_key gc order mcq c).(translation) = Some tr /\
    translated api_key gc 0 mcq.(question) = inr tr.(t_question) /\
    length tr.(t_options) = length mcq.(options) /\
    (forall i opt, mcq.(options) !! i = Some opt ->
       exists v, tr.(t_options) !! i = Some v /\ translated api_key gc (S i) opt = inr v).
Proof.
  intros Hc Hp Hok. unfold handleTranslate. rewrite Hc.
  set (reqs := translate_requests mcq).
  set (settle := fun i => snd (Gemini.translateText api_key (gc i) (default "" (reqs !! i)))).
  set (val := fun i => match settle i with inr v => v | inl _ => "" end).
  assert (Hval : forall i, i < length reqs -> settle i = inr (val i)).
  { intros i Hi. destruct (reqs !! i) as [t|] eqn:Ht;
      [|apply lookup_ge_None in Ht; lia].
    destruct (Hok i t Ht) as [v Hv]. unfold val, settle. rewrite Ht. simpl.
    unfold translated in Hv. by rewrite Hv. }
  assert (Hlen : length reqs = S (length mcq.(options))) by reflexivity.
  rewrite (promise_all_in_submission_order (length reqs) settle val order)
    by (rewrite ?Hlen; auto).
  rewrite Hlen. simpl.
  eexists. split; [reflexivity|]. simpl.
  split; [|split].
  - rewrite <- (Hval 0) by (rewrite Hlen; lia). reflexivity.
  - by rewrite length_map, length_seq.
  - intros i opt Ho. exists (val (S i)). split.
    + rewrite list_lookup_fmap, lookup_seq_lt; [reflexivity|].
      apply lookup_lt_Some in Ho. exact Ho.
    + apply lookup_lt_Some in Ho as Hi.
      rewrite <- (Hval (S i)) by (rewrite Hlen; lia).
      unfold settle, translated. simpl. subst reqs. unfold translate_requests. simpl.
      by rewrite Ho.
Qed.

End Claims5.

Module Claims6.
Import Js Gemini.

(** A model that answers every translation request with a tagged copy of its text. *)
Definition demo_translator (i : nat) (r : request) : exn + string :=
  match r with
  | TranslateReq t => inr ("ar:" ++ t)
  | GenerateMcqs _ _ => inr "[]"
  end.

(** C9, with the five calls of the demo card completing in the order 4, 2, 0, 3, 1. *)
Lemma translation_follows_submission_order_witness :
  exists tr,
    (Card.handleTranslate (Some "key") demo_translator [4; 2; 0; 3; 1] Claims3.demo_mcq
       (Card.mkCard None false false)).(Card.translation) = Some tr /\
    Claims5.translated (Some "key") demo_translator 0 Claims3.demo_mcq.(App.question)
      = inr tr.(Card.t_question) /\
    length tr.(Card.t_options) = length Claims3.demo_mcq.(App.options) /\
    (forall i opt, Claims3.demo_mcq.(App.options) !! i = Some opt ->
       exists v, tr.(Card.t_options) !! i = Some v /\
                 Claims5.translated (Some "key") demo_translator (S i) opt = inr v).
Proof.
  apply Claims5.translation_follows_submission_order.
  - reflexivity.
  - apply (bool_decide_unpack _). vm_compute. reflexivity.
  - intros i text _. unfold Claims5.translated, translateText.
    destruct (String.eqb text ""); eexists; reflexivity.
Defined.

(** C6 (fails): with a credential present, a request whose failure mentions the
    API key (the model's answer to an invalid key) is raised, not turned into the
    failure text. *)
Lemma translate_raises_on_invalid_key :
  translateText (Some "AIza-invalid")
    (fun _ => inl (JsError "API key not valid. Please pass a valid API key.")) "Hello"
  = ([TranslateReq "Hello"], inl (JsError "API key not valid. Please pass a valid API key.")).
Proof. reflexivity. Qed.

(** The credential is configured. *)
Definition key_present (api_key : option string) : Prop :=
  exists k, api_key = Some k /\ k <> "".

(** C6 (as the code does it): [translateText] returns [""] on empty input without
    any request; a missing credential raises the missing-key error before any
    request; once the request is sent, a failure is raised as is when its message
    mentions the API key, and otherwise yields the failure text; a success yields
    the trimmed response text. *)
Theorem translateText_outcomes api_key gc text :
  (text = "" -> translateText api_key gc text = ([], inr "")) /\
  (text <> "" -> ~ key_present api_key ->
     translateText api_key gc text = ([], inl (JsError missing_key_message))) /\
  (text <> "" -> key_present api_key -> forall e, gc (TranslateReq text) = inl e ->
     translateText api_key gc text =
       ([TranslateReq text], if is_api_key_error e then inl e else inr translation_failed)) /\
  (text <> "" -> key_present api_key -> forall r, gc (TranslateReq text) = inr r ->
     translateText api_key gc text = ([TranslateReq text], inr (trim r))) /\
  is_api_key_error (JsError missing_key_message) = true.
Proof.
  unfold translateText, try_catch, bind, getAiInstance, call, ret, throw.
  split; [intros ->; reflexivity|].
  assert (Hne : forall t, t <> "" -> String.eqb t "" = false)
    by (intros t Ht; apply String.eqb_neq; exact Ht).
  split; [|split; [|split]].
  - intros Ht Hk. rewrite (Hne _ Ht).
    destruct api_key as [k|]; [|reflexivity].
    destruct (String.eqb k "") eqn:Hk0; [reflexivity|].
    exfalso. apply Hk. exists k. split; [reflexivity|]. by apply String.eqb_neq.
  - intros Ht (k & -> & Hk) e He. rewrite (Hne _ Ht), (Hne _ Hk). simpl. rewrite He.
    destruct (is_api_key_error e); reflexivity.
  - intros Ht (k & -> & Hk) r Hr. rewrite (Hne _ Ht), (Hne _ Hk). simpl. rewrite Hr.
    reflexivity.
  - vm_compute. reflexivity.
Qed.

(** C6, at a concrete failing call. *)
Lemma translateText_outcomes_witness :
  key_present (Some "key") /\
  translateText (Some "key") (fun _ => inl (JsError "fetch failed")) "Hello"
    = ([TranslateReq "Hello"], inr translation_failed).
Proof.
  assert (Hk : key_present (Some "key")) by (exists "key"; split; [reflexivity|discriminate]).
  split; [exact Hk|].
  exact (proj1 (proj2 (proj2 (translateText_outcomes (Some "key")
           (fun _ => inl (JsError "fetch failed")) "Hello")))
           ltac:(discriminate) Hk (JsError "fetch failed") eq_refl).
Defined.

End Claims6.

Module Claims7.
Import Js Gemini.

(** C7 (fails): a response that parses to an object instead of an array ends in
    exactly the same error as a network failure. *)
Lemma non_array_response_gives_generic_error :
  snd (generateMcqsFromText (Some "key") (fun _ => inr "{}") (fun _ => inr (JObj [])) "text" 5)
  = snd (generateMcqsFromText (Some "key") (fun _ => inl (JsError "fetch failed"))
           (fun _ => inr (JObj [])) "text" 5) /\
  snd (generateMcqsFromText (Some "key") (fun _ => inr "{}") (fun _ => inr (JObj [])) "text" 5)
  = inl (JsError generation_failed_message).
Proof. split; vm_compute; reflexivity. Qed.

(** C7 (as the code does it): without a credential, [generateMcqsFromText] raises
    the missing-key error before any request; once the request is sent, a
    response that parses to a non-array ends in the generic error, and a failed
    call or an unparsable response is raised as is when its message mentions the
    API key and as the generic error otherwise; the missing-key error differs from
    the generic one. *)
Theorem generate_error_outcomes api_key gc JSON_parse text n :
  let req := GenerateMcqs text n in
  (~ Claims6.key_present api_key ->
     generateMcqsFromText api_key gc JSON_parse text n = ([], inl (JsError missing_key_message))) /\
  (Claims6.key_present api_key -> forall rt v,
     gc req = inr rt -> JSON_parse (trim rt) = inr v -> (forall xs, v <> JArr xs) ->
     generateMcqsFromText api_key gc JSON_parse text n =
       ([req], inl (JsError generation_failed_message))) /\
  (Claims6.key_present api_key -> forall e, gc req = inl e ->
     generateMcqsFromText api_key gc JSON_parse text n =
       ([req], inl (if is_api_key_error e then e else JsError generation_failed_message))) /\
  (Claims6.key_present api_key -> forall rt e,
     gc req = inr rt -> JSON_parse (trim rt) = inl e ->
     generateMcqsFromText api_key gc JSON_parse text n =
       ([req], inl (if is_api_key_error e then e else JsError generation_failed_message))) /\
  JsError missing_key_message <> JsError generation_failed_message.
Proof.
  intros req.
  unfold generateMcqsFromText, try_catch, bind, getAiInstance, call, lift, ret, throw.
  assert (Hne : forall t, t <> "" -> String.eqb t "" = false)
    by (intros t Ht; apply String.eqb_neq; exact Ht).
  split; [|split; [|split; [|split]]].
  - intros Hk. destruct api_key as [k|]; [|reflexivity].
    destruct (String.eqb k "") eqn:Hk0; [reflexivity|].
    exfalso. apply Hk. exists k. split; [reflexivity|]. by apply String.eqb_neq.
  - intros (k & -> & Hk) rt v Hg Hp Hv. rewrite (Hne _ Hk). simpl.
    subst req. rewrite Hg. simpl. rewrite Hp. simpl.
    destruct v; try reflexivity. exfalso. by apply (Hv xs).
  - intros (k & -> & Hk) e Hg. rewrite (Hne _ Hk). simpl. subst req. rewrite Hg. simpl.
    destruct (is_api_key_error e); reflexivity.
  - intros (k & -> & Hk) rt e Hg Hp. rewrite (Hne _ Hk). simpl.
    subst req. rewrite Hg. simpl. rewrite Hp. simpl.
    destruct (is_api_key_error e); reflexivity.
  - discriminate.
Qed.

(** C7, at a response that parses to an object. *)
Lemma generate_error_outcomes_witness :
  Claims6.key_present (Some "key") /\
  generateMcqsFromText (Some "key") (fun _ => inr "{}") (fun _ => inr (JObj [])) "text" 5
    = ([GenerateMcqs "text" 5], inl (JsError generation_failed_message)).
Proof.
  assert (Hk : Claims6.key_present (Some "key"))
    by (exists "key"; split; [reflexivity|discriminate]).
  split; [exact Hk|].
  exact (proj1 (proj2 (generate_error_outcomes (Some "key") (fun _ => inr "{}")
           (fun _ => inr (JObj [])) "text" 5))
           Hk "{}" (JObj []) eq_refl eq_refl ltac:(discriminate)).
Defined.

(** A response with one valid record and one whose answer is not an option. *)
Definition demo_good : json :=
  JObj [("question", JStr "Q"); ("options", JArr [JStr "A"; JStr "B"]); ("answer", JStr "A")].
Definition demo_bad : json :=
  JObj [("question", JStr "Q2"); ("options", JArr [JStr "A"; JStr "B"]); ("answer", JStr "C")].

(** C1, at that response: the invalid record is dropped. *)
Lemma generate_results_are_valid_witness :
  generateMcqsFromText (Some "key") (fun _ => inr "[...]") (fun _ => inr (JArr [demo_good; demo_bad]))
    "text" 2 = ([GenerateMcqs "text" 2], inr [demo_good]) /\
  exists response_text xs,
    inr "[...]" = @inr exn string response_text /\
    @inr exn json (JArr [demo_good; demo_bad]) = inr (JArr xs) /\
    (forall mcq, In mcq [demo_good] -> In mcq xs /\ Claims.spec_valid_record mcq) /\
    (forall mcq, ~ Claims.spec_valid_record mcq -> ~ In mcq [demo_good]).
Proof.
  assert (H : generateMcqsFromText (Some "key") (fun _ => inr "[...]")
                (fun _ => inr (JArr [demo_good; demo_bad])) "text" 2
              = ([GenerateMcqs "text" 2], inr [demo_good])) by (vm_compute; reflexivity).
  split; [exact H|].
  exact (Claims.generate_results_are_valid (Some "key") (fun _ => inr "[...]")
           (fun _ => inr (JArr [demo_good; demo_bad])) "text" 2 _ _ H).
Defined.

End Claims7.

Module Claims8.
Import App.

(** C2, on the demo quiz answered correctly. *)
Lemma calculateScore_spec_witness :
  calculateScore [Claims3.demo_mcq] (<[0 := "Oxygen"]> ∅) = 1.
Proof.
  apply (proj2 (proj2 (Claims2.calculateScore_spec [Claims3.demo_mcq] (<[0 := "Oxygen"]> ∅)))).
  intros i m Hm. destruct i as [|i]; [|discriminate].
  injection Hm as <-. reflexivity.
Defined.

End Claims8.

(* ------------------------------------------------------------------ *)
(** ** Further properties of the code *)

Module Extras.
Import Js App Card Screen.

(** A string made only of the white space [trim] removes. *)
Definition all_space (s : string) : bool := forallb is_space (list_ascii_of_string s).

(** The text a page contributes to [extractTextFromPdf]. *)
Definition page_text (items : list string) : string := join " " items ++ newline2.

Lemma append_cons x (a b : string) : String x a ++ b = String x (a ++ b).
Proof. reflexivity. Qed.

Lemma append_nil (b : string) : "" ++ b = b.
Proof. reflexivity. Qed.

Lemma append_assoc_str (a b c : string) : (a ++ b) ++ c = a ++ (b ++ c).
Proof. induction a as [|x a IH]; [done|]. rewrite !append_cons. by rewrite IH. Qed.

Lemma append_empty_r (a : string) : a ++ "" = a.
Proof. induction a as [|x a IH]; [done|]. rewrite append_cons. by rewrite IH. Qed.

Lemma extract_pages_acc pages acc :
  extract_pages pages acc = acc ++ extract_pages pages "".
Proof.
  revert acc. induction pages as [|items pages IH]; intros acc; simpl.
  - by rewrite append_empty_r.
  - rewrite append_nil, IH, (IH (join " " items ++ newline2)). by rewrite append_assoc_str.
Qed.

(** X1: the extracted text is the texts of the pages in page order, each page's
    items joined with single spaces and followed by a blank line; a document with
    no pages gives the empty string, and a load error is passed on. *)
Theorem extractTextFromPdf_pages (pages : list (list string)) :
  extractTextFromPdf (inr pages) = inr (String.concat "" (map page_text pages)) /\
  (forall e, extractTextFromPdf (inl e) = inl e).
Proof.
  split; [|done]. simpl. f_equal.
  induction pages as [|items pages IH]; simpl; [done|].
  rewrite extract_pages_acc, IH. unfold page_text.
  destruct pages; simpl; [by rewrite append_empty_r|done].
Qed.

Lemma all_space_app a b : all_space (a ++ b) = all_space a && all_space b.
Proof.
  unfold all_space. induction a as [|x a IH]; [done|].
  rewrite append_cons. simpl. rewrite IH. by rewrite andb_assoc.
Qed.

Lemma all_space_join items :
  (forall x, In x items -> all_space x = true) -> all_space (join " " items) = true.
Proof.
  induction items as [|x items IH]; intros H; [done|].
  destruct items as [|y items].
  - simpl. apply H. by left.
  - change (join " " (x :: y :: items)) with (x ++ " " ++ join " " (y :: items)).
    rewrite !all_space_app, H by (left; done). rewrite IH; [done|].
    intros z Hz. apply H. by right.
Qed.

Lemma trim_start_all_space s : all_space s = true -> trim_start s = "".
Proof.
  unfold all_space. induction s as [|c s IH]; simpl; [done|].
  intros H. apply andb_true_iff in H as [Hc Hs]. rewrite Hc. by apply IH.
Qed.

Lemma trim_all_space s : all_space s = true -> trim s = "".
Proof. intros H. unfold trim. rewrite (trim_start_all_space s H). reflexivity. Qed.

Lemma extract_pages_all_space pages acc :
  all_space acc = true ->
  (forall items x, In items pages -> In x items -> all_space x = true) ->
  all_space (extract_pages pages acc) = true.
Proof.
  revert acc. induction pages as [|items pages IH]; intros acc Hacc H; simpl; [done|].
  apply IH.
  - rewrite !all_space_app, Hacc, all_space_join; [done|].
    intros x Hx. apply (H items); [by left|done].
  - intros it x Hi Hx. apply (H it); [by right|done].
Qed.

(** X2: a PDF whose text items are all white space (for instance a scanned
    document with no text layer) is rejected as too short after extraction:
    generation is never requested and the welcome screen shows the error. *)
Theorem textless_pdf_rejected (load : file -> exn + list (list string))
    generate (s : app) f pages :
  s.(pdfFile) = Some f -> load f = inr pages ->
  (forall items x, In items pages -> In x items -> all_space x = true) ->
  let '(calls, s') := handleSubmit (fun g => extractTextFromPdf (load g)) generate s in
  calls = [CallExtract f] /\ s'.(appState) = Welcome /\
  s'.(error) = Some ("An error occurred: " ++ too_short_message).
Proof.
  intros Hf Hl Hsp. unfold handleSubmit, handleSubmit_resume. rewrite Hf, Hl. simpl.
  rewrite trim_all_space by (apply extract_pages_all_space; [done|exact Hsp]).
  simpl. repeat split.
Qed.

(** X2, on a two-page document whose only items are blanks. *)
Lemma textless_pdf_rejected_witness :
  let s := handleFileChange (Some Claims3.demo_pdf) init in
  let '(calls, s') := handleSubmit (fun g => extractTextFromPdf (inr [[" "; ""]; []]))
                        Claims3.demo_generate s in
  calls = [CallExtract Claims3.demo_pdf] /\ s'.(appState) = Welcome /\
  s'.(error) = Some ("An error occurred: " ++ too_short_message).
Proof.
  apply (textless_pdf_rejected (fun _ => inr [[" "; ""]; []]) Claims3.demo_generate
           (handleFileChange (Some Claims3.demo_pdf) init) Claims3.demo_pdf [[" "; ""]; []]).
  - reflexivity.
  - reflexivity.
  - intros items x Hi Hx. simpl in Hi.
    destruct Hi as [<-|[<-|[]]]; simpl in Hx; [|destruct Hx].
    destruct Hx as [<-|[<-|[]]]; reflexivity.
Defined.

(** X3: choosing a file whose type is not PDF clears the selection and shows
    "Please select a valid PDF file."; submitting then makes no call, stays on
    the welcome screen and shows "Please select a PDF file first.". *)
Theorem non_pdf_selection_blocks_submit extract generate (s : app) (f : file) :
  f.(file_type) <> "application/pdf" -> s.(appState) = Welcome ->
  let s1 := handleFileChange (Some f) s in
  s1.(pdfFile) = None /\ s1.(error) = Some "Please select a valid PDF file." /\
  fst (handleSubmit extract generate s1) = [] /\
  (snd (handleSubmit extract generate s1)).(appState) = Welcome /\
  (snd (handleSubmit extract generate s1)).(error) = Some "Please select a PDF file first.".
Proof.
  intros Ht Ha. unfold handleFileChange.
  replace (String.eqb (file_type f) "application/pdf") with false
    by (symmetry; by apply String.eqb_neq).
  simpl. repeat split. exact Ha.
Qed.

(** X3, with a text file. *)
Lemma non_pdf_selection_blocks_submit_witness :
  let s1 := handleFileChange (Some (mkFile "notes.txt" "text/plain")) init in
  s1.(pdfFile) = None /\ s1.(error) = Some "Please select a valid PDF file." /\
  fst (handleSubmit Claims3.demo_extract Claims3.demo_generate s1) = [] /\
  (snd (handleSubmit Claims3.demo_extract Claims3.demo_generate s1)).(appState) = Welcome /\
  (snd (handleSubmit Claims3.demo_extract Claims3.demo_generate s1)).(error)
    = Some "Please select a PDF file first.".
Proof.
  apply (non_pdf_selection_blocks_submit Claims3.demo_extract Claims3.demo_generate init).
  - discriminate.
  - reflexivity.
Defined.

(** X4: a successful submission requests extraction, then generation with the
    extracted text and the chosen question count, and opens a fresh quiz: results
    screen in study mode, the generated questions, no stored answers, not
    submitted, no error, the file still selected. *)
Theorem submit_success_fresh_quiz extract generate (s : app) f text generated :
  s.(pdfFile) = Some f -> extract f = inr text ->
  100 <= String.length (trim text) -> generate text s.(numQuestions) = inr generated ->
  let '(calls, s') := handleSubmit extract generate s in
  calls = [CallExtract f; CallGenerate text s.(numQuestions)] /\
  s'.(appState) = Results /\ s'.(resultsMode) = Study /\ s'.(mcqs) = generated /\
  s'.(testAnswers) = ∅ /\ s'.(showTestScore) = false /\ s'.(error) = None /\
  s'.(pdfFile) = Some f /\ s'.(numQuestions) = s.(numQuestions).
Proof.
  intros Hf He Hl Hg. unfold handleSubmit, handleSubmit_resume, handleSubmit_sync.
  rewrite Hf, He. simpl.
  replace (Nat.ltb (String.length (trim text)) 100) with false
    by (symmetry; apply Nat.ltb_ge; lia).
  rewrite Hg. repeat split. exact Hf.
Qed.

(** X4, on the demo session. *)
Lemma submit_success_fresh_quiz_witness :
  let s := handleFileChange (Some Claims3.demo_pdf) init in
  let '(calls, s') := handleSubmit Claims3.demo_extract Claims3.demo_generate s in
  calls = [CallExtract Claims3.demo_pdf; CallGenerate Claims3.demo_text s.(numQuestions)] /\
  s'.(appState) = Results /\ s'.(resultsMode) = Study /\ s'.(mcqs) = [Claims3.demo_mcq] /\
  s'.(testAnswers) = ∅ /\ s'.(showTestScore) = false /\ s'.(error) = None /\
  s'.(pdfFile) = Some Claims3.demo_pdf /\ s'.(numQuestions) = s.(numQuestions).
Proof.
  apply (submit_success_fresh_quiz Claims3.demo_extract Claims3.demo_generate
           (handleFileChange (Some Claims3.demo_pdf) init) Claims3.demo_pdf
           Claims3.demo_text [Claims3.demo_mcq]); try reflexivity.
  vm_compute. lia.
Defined.



(** The loading screen holds no quiz, answers or error, and on the results screen
    every stored answer is an option of the question it is stored for. *)
Definition session_inv (s : app) : Prop :=
  (s.(appState) = Loading -> s.(mcqs) = [] /\ s.(testAnswers) = ∅ /\ s.(error) = None) /\
  (s.(appState) = Results -> forall i a, s.(testAnswers) !! i = Some a ->
     exists m, s.(mcqs) !! i = Some m /\ In a m.(options)).

Lemma step_preserves_session_inv s s' : session_inv s -> step s s' -> session_inv s'.
Proof.
  intros Hinv Hs. revert Hinv.
  destruct Hs as
    [s f Ha|s n Ha Hn|s Ha|s f extract generate Ha Hf|s Ha|s Ha|s Ha
    |s i mcq option Ha Hm Ho Hmode Hsc|s Ha Hsh]; intros [Hl Hr].
  - unfold handleFileChange. repeat case_match; unfold session_inv; simpl;
      split; intros; congruence.
  - unfold session_inv; simpl. split; intros; congruence.
  - unfold handleSubmit_sync. case_match; unfold session_inv; simpl; split; intros;
      try congruence. repeat split.
  - destruct (Hl Ha) as (_ & Hta & _). unfold handleSubmit_resume.
    repeat case_match; unfold session_inv; simpl; split; intros; try congruence.
    rewrite Hta, lookup_empty in *. discriminate.
  - unfold session_inv; simpl. split; intros; [congruence|]. by apply Hr.
  - unfold session_inv; simpl. split; intros; [congruence|]. by apply Hr.
  - unfold session_inv; simpl. split; intros; congruence.
  - unfold session_inv; simpl. split; [intros; congruence|intros _ j a Hj].
    destruct (decide (j = i)) as [->|Hne].
    + rewrite lookup_insert_eq in Hj. injection Hj as <-. eauto.
    + rewrite lookup_insert_ne in Hj by congruence. by apply Hr.
  - unfold session_inv; simpl. split; intros; [congruence|]. by apply Hr.
Qed.

(** X6: in every reachable state, the loading screen holds no quiz, no stored
    answers and no error, and on the results screen every stored answer belongs
    to an existing question and is one of that question's options. *)
Theorem reachable_session_inv (s : app) : reachable s -> session_inv s.
Proof.
  induction 1 as [|s s' _ IH Hs].
  - split; discriminate.
  - exact (step_preserves_session_inv s s' IH Hs).
Qed.

(** X6, at the demo session. *)
Lemma reachable_session_inv_witness : session_inv Claims3.demo_s5.
Proof. exact (reachable_session_inv Claims3.demo_s5 Claims3.demo_s5_reachable). Defined.

(** X7: when every generated record was dropped, the submission still opens the
    results screen, with no question card, no "Submit Test" button and a score
    of 0. *)
Theorem empty_generation_opens_empty_results extract generate (s : app) f text :
  s.(pdfFile) = Some f -> extract f = inr text ->
  100 <= String.length (trim text) -> generate text s.(numQuestions) = inr [] ->
  let s' := snd (handleSubmit extract generate s) in
  s'.(appState) = Results /\ result_cards s' = [] /\ submit_test_shown s' = false /\
  calculateScore s'.(mcqs) s'.(testAnswers) = 0.
Proof.
  intros Hf He Hl Hg. unfold handleSubmit, handleSubmit_resume, handleSubmit_sync.
  rewrite Hf, He. simpl.
  replace (Nat.ltb (String.length (trim text)) 100) with false
    by (symmetry; apply Nat.ltb_ge; lia).
  rewrite Hg. repeat split.
Qed.

(** X7, with a generator that returns nothing. *)
Lemma empty_generation_opens_empty_results_witness :
  let s' := snd (handleSubmit Claims3.demo_extract (fun _ _ => inr [])
                   (handleFileChange (Some Claims3.demo_pdf) init)) in
  s'.(appState) = Results /\ result_cards s' = [] /\ submit_test_shown s' = false /\
  calculateScore s'.(mcqs) s'.(testAnswers) = 0.
Proof.
  apply (empty_generation_opens_empty_results Claims3.demo_extract (fun _ _ => inr [])
           (handleFileChange (Some Claims3.demo_pdf) init) Claims3.demo_pdf Claims3.demo_text);
    try reflexivity.
  vm_compute. lia.
Defined.

Lemma calculateScore_count (mcqs : list MCQ) (ta : gmap nat string) :
  calculateScore mcqs ta = Claims2.spec_score mcqs ta.
Proof.
  unfold calculateScore, Claims2.spec_score.
  rewrite Claims2.calculateScore_reduce_count. simpl.
  f_equal. apply List.filter_ext. intros i. rewrite Nat.sub_0_r. reflexivity.
Qed.

Lemma filter_count_update (P Q : nat -> bool) (l : list nat) (i : nat) :
  List.NoDup l -> In i l -> (forall j, j <> i -> P j = Q j) ->
  length (List.filter Q l) + (if P i then 1 else 0) =
  length (List.filter P l) + (if Q i then 1 else 0).
Proof.
  induction l as [|x l IH]; intros Hnd Hi Hpq; [destruct Hi|].
  apply NoDup_cons_iff in Hnd as [Hx Hnd]. simpl.
  destruct (decide (x = i)) as [->|Hne].
  - rewrite (List.filter_ext_in Q P l).
    2:{ intros j Hj. symmetry. apply Hpq. intros ->. contradiction. }
    destruct (P i), (Q i); simpl; lia.
  - destruct Hi as [Hi|Hi]; [contradiction|].
    rewrite (Hpq x Hne). specialize (IH Hnd Hi Hpq).
    destruct (Q x); simpl; lia.
Qed.

(** X8: selecting option [o] for question [i] changes the score only through
    question [i]: the new score plus 1 if [i]'s previous answer was correct
    equals the old score plus 1 if [o] is correct; an index past the quiz does
    not change the score. *)
Theorem answer_select_score (s : app) (i : nat) (o : string) :
  let old := calculateScore s.(mcqs) s.(testAnswers) in
  let new := calculateScore (handleAnswerSelect i o s).(mcqs)
               (handleAnswerSelect i o s).(testAnswers) in
  match s.(mcqs) !! i with
  | Some m =>
      new + (if bool_decide (s.(testAnswers) !! i = Some m.(answer)) then 1 else 0) =
      old + (if bool_decide (o = m.(answer)) then 1 else 0)
  | None => new = old
  end.
Proof.
  simpl. rewrite !calculateScore_count. unfold Claims2.spec_score.
  set (ta := testAnswers s). set (ms := mcqs s).
  destruct (ms !! i) as [m|] eqn:Hm.
  - pose proof (filter_count_update
      (fun j => match ms !! j with
                | Some m0 => bool_decide (ta !! j = Some m0.(answer))
                | None => false end)
      (fun j => match ms !! j with
                | Some m0 => bool_decide (<[i := o]> ta !! j = Some m0.(answer))
                | None => false end)
      (seq 0 (length ms)) i (seq_NoDup _ 0)) as H.
    cbv beta in H. rewrite Hm, lookup_insert_eq in H.
    replace (bool_decide (Some o = Some (answer m))) with (bool_decide (o = answer m)) in H
      by (apply bool_decide_ext; split; [intros ->|intros [=]]; done).
    apply H.
    + apply in_seq. apply lookup_lt_Some in Hm. lia.
    + intros j Hj. destruct (ms !! j); [|done]. by rewrite lookup_insert_ne by congruence.
  - f_equal. apply List.filter_ext_in. intros j Hj.
    destruct (ms !! j) eqn:Hmj; [|done].
    rewrite lookup_insert_ne; [done|]. intros ->. congruence.
Qed.

(** X9: the score never exceeds the number of questions. *)
Theorem calculateScore_le_length (mcqs : list MCQ) (ta : gmap nat string) :
  calculateScore mcqs ta <= length mcqs.
Proof.
  rewrite calculateScore_count. unfold Claims2.spec_score.
  rewrite <- (length_seq (length mcqs) 0) at 2. apply filter_length_le.
Qed.

Lemma filter_throws (p : json -> exn + bool) xs :
  (exists x e, In x xs /\ p x = inl e) ->
  exists x e, In x xs /\ p x = inl e /\ Js.filter p xs = inl e.
Proof.
  induction xs as [|y xs IH]; intros (x & e & Hx & Hp); [destruct Hx|].
  simpl. destruct (p y) as [e'|b] eqn:Hy.
  - exists y, e'. split; [by left|]. done.
  - destruct Hx as [->|Hx]; [congruence|].
    destruct IH as (x' & e'' & Hx' & Hp' & Hf); [by exists x, e|].
    exists x', e''. split; [by right|]. split; [done|]. by rewrite Hf.
Qed.

Lemma mcq_check_throws mcq e :
  Gemini.mcq_check mcq = inl e ->
  mcq = JNull /\ e = JsError ("Cannot read properties of null (reading 'question')").
Proof.
  unfold Gemini.mcq_check. destruct mcq; simpl; try (intros [=]; fail).
  - intros [=<-]. done.
  - repeat case_match; intros; discriminate.
Qed.

(** X10: a [null] element anywhere in the model's array makes the whole
    generation fail with the generic error, instead of being dropped like the
    other invalid records. *)
Theorem null_record_fails_generation api_key gc JSON_parse text n rt xs :
  Claims6.key_present api_key ->
  gc (Gemini.GenerateMcqs text n) = inr rt -> JSON_parse (trim rt) = inr (JArr xs) ->
  In JNull xs ->
  Gemini.generateMcqsFromText api_key gc JSON_parse text n =
    ([Gemini.GenerateMcqs text n], inl (JsError Gemini.generation_failed_message)).
Proof.
  intros (k & -> & Hk) Hg Hp Hn.
  destruct (filter_throws Gemini.mcq_check xs) as (x & e & _ & Hx & Hf).
  { exists JNull, (JsError ("Cannot read properties of null (reading 'question')")).
    split; [exact Hn|reflexivity]. }
  apply mcq_check_throws in Hx as [_ ->].
  unfold Gemini.generateMcqsFromText, Gemini.try_catch, Gemini.bind, Gemini.getAiInstance,
    Gemini.call, Gemini.lift, Gemini.ret, Gemini.throw.
  replace (String.eqb k "") with false by (symmetry; by apply String.eqb_neq).
  simpl. rewrite Hg. simpl. rewrite Hp. simpl. rewrite Hf. reflexivity.
Qed.

(** X10, on a response with a valid record followed by [null]. *)
Lemma null_record_fails_generation_witness :
  Gemini.generateMcqsFromText (Some "key") (fun _ => inr "[...]")
    (fun _ => inr (JArr [Claims7.demo_good; JNull])) "text" 2 =
    ([Gemini.GenerateMcqs "text" 2], inl (JsError Gemini.generation_failed_message)).
Proof.
  apply (null_record_fails_generation (Some "key") (fun _ => inr "[...]")
           (fun _ => inr (JArr [Claims7.demo_good; JNull])) "text" 2 "[...]"
           [Claims7.demo_good; JNull]).
  - exists "key". split; [reflexivity|discriminate].
  - reflexivity.
  - reflexivity.
  - simpl. auto.
Defined.

Lemma filter_sublist (p : json -> exn + bool) xs ys :
  Js.filter p xs = inr ys -> sublist ys xs.
Proof.
  revert ys. induction xs as [|x xs IH]; simpl; intros ys Hf.
  - injection Hf as <-. constructor.
  - destruct (p x) as [e|b]; [discriminate|].
    destruct (Js.filter p xs) as [e|zs] eqn:Hz; [discriminate|].
    injection Hf as <-. destruct b.
    + apply sublist_skip. by apply IH.
    + apply sublist_cons. by apply IH.
Qed.

(** X11: the MCQs returned by [generateMcqsFromText] are a subsequence of the
    array the model returned: records keep their order and nothing is added, so
    there are never more questions than the model produced. *)
Theorem generate_result_is_subsequence api_key gc JSON_parse text n calls result :
  Gemini.generateMcqsFromText api_key gc JSON_parse text n = (calls, inr result) ->
  exists rt xs,
    gc (Gemini.GenerateMcqs text n) = inr rt /\ JSON_parse (trim rt) = inr (JArr xs) /\
    sublist result xs.
Proof.
  unfold Gemini.generateMcqsFromText, Gemini.try_catch, Gemini.bind, Gemini.getAiInstance,
    Gemini.call, Gemini.lift.
  destruct api_key as [k|]; [destruct (String.eqb k "")|]; simpl; try Claims.gen_fails.
  destruct (gc (Gemini.GenerateMcqs text n)) as [e|rt]; simpl; [Claims.gen_fails|].
  destruct (JSON_parse (trim rt)) as [e|v] eqn:Hp; simpl; [Claims.gen_fails|].
  destruct v; simpl; try Claims.gen_fails.
  destruct (Js.filter Gemini.mcq_check xs) as [e|ys] eqn:Hf; simpl; [Claims.gen_fails|].
  intros [= _ <-]. exists rt, xs. split; [done|]. split; [done|].
  by apply (filter_sublist Gemini.mcq_check).
Qed.

(** X11, on the response with one valid and one invalid record. *)
Lemma generate_result_is_subsequence_witness :
  exists rt xs,
    @inr exn string "[...]" = inr rt /\
    @inr exn json (JArr [Claims7.demo_good; Claims7.demo_bad]) = inr (JArr xs) /\
    sublist [Claims7.demo_good] xs.
Proof.
  apply (generate_result_is_subsequence (Some "key") (fun _ => inr "[...]")
           (fun _ => inr (JArr [Claims7.demo_good; Claims7.demo_bad])) "text" 2
           [Gemini.GenerateMcqs "text" 2]).
  vm_compute. reflexivity.
Defined.

(** What one [translateText(text)] call of a card's batch resolves to when the
    key is configured and no failure mentions the key: [""] for empty text,
    the trimmed response, or the failure text. *)
Definition card_translation_of (gc : nat -> Gemini.request -> exn + string)
    (i : nat) (text : string) : string :=
  if String.eqb text "" then "" else
  match gc i (Gemini.TranslateReq text) with
  | inr r => trim r
  | inl _ => Gemini.translation_failed
  end.

Lemma translateText_value api_key (g : Gemini.request -> exn + string) text :
  Claims6.key_present api_key ->
  (forall r e, g r = inl e -> Gemini.is_api_key_error e = false) ->
  snd (Gemini.translateText api_key g text) =
  inr (if String.eqb text "" then "" else
       match g (Gemini.TranslateReq text) with
       | inr r => trim r
       | inl _ => Gemini.translation_failed
       end).
Proof.
  intros (k & -> & Hk) Hg.
  unfold Gemini.translateText, Gemini.try_catch, Gemini.bind, Gemini.getAiInstance,
    Gemini.call, Gemini.ret, Gemini.throw.
  destruct (String.eqb text "") eqn:Ht; [reflexivity|].
  replace (String.eqb k "") with false by (symmetry; by apply String.eqb_neq).
  simpl. destruct (g (Gemini.TranslateReq text)) as [e|r] eqn:He; simpl; [|reflexivity].
  by rewrite (Hg _ _ He).
Qed.

Lemma translateText_missing_key api_key (g : Gemini.request -> exn + string) text :
  ~ Claims6.key_present api_key -> text <> "" ->
  snd (Gemini.translateText api_key g text) = inl (JsError Gemini.missing_key_message).
Proof.
  intros Hk Ht.
  unfold Gemini.translateText, Gemini.try_catch, Gemini.bind, Gemini.getAiInstance,
    Gemini.call, Gemini.ret, Gemini.throw.
  replace (String.eqb text "") with false by (symmetry; by apply String.eqb_neq).
  destruct api_key as [k|]; [|reflexivity].
  destruct (String.eqb k "") eqn:Hk0; [reflexivity|].
  exfalso. apply Hk. exists k. split; [reflexivity|]. by apply String.eqb_neq.
Qed.

Lemma translate_batch_values api_key gc order (mcq : MCQ) c :
  Claims6.key_present api_key ->
  (forall i r e, gc i r = inl e -> Gemini.is_api_key_error e = false) ->
  c.(translation) = None ->
  Permutation order (seq 0 (S (length mcq.(options)))) ->
  handleTranslate api_key gc order mcq c =
  mkCard (Some (mkTranslation (card_translation_of gc 0 mcq.(question))
                  (imap (fun j opt => card_translation_of gc (S j) opt) mcq.(options))))
         false true.
Proof.
  intros Hk Hg Hc Hp. unfold handleTranslate. rewrite Hc.
  set (reqs := translate_requests mcq).
  set (val := fun i => card_translation_of gc i (default "" (reqs !! i))).
  rewrite (Claims5.promise_all_in_submission_order (length reqs) _ val order).
  - change (length reqs) with (S (length mcq.(options))). simpl.
    do 3 f_equal. apply list_eq. intros j.
    rewrite list_lookup_fmap, list_lookup_imap.
    destruct (decide (j < length mcq.(options))) as [Hj|Hj].
    + rewrite lookup_seq_lt by exact Hj.
      destruct (mcq.(options) !! j) as [opt|] eqn:Ho;
        [|apply lookup_ge_None in Ho; lia].
      simpl. unfold val. subst reqs. unfold translate_requests. simpl. by rewrite Ho.
    + rewrite (proj2 (lookup_ge_None _ _)) by (rewrite length_seq; lia).
      by rewrite (proj2 (lookup_ge_None (options mcq) j)) by lia.
  - exact Hp.
  - intros i _. unfold val. cbv beta.
    rewrite (translateText_value api_key (gc i)); [reflexivity|exact Hk|].
    intros r e; apply Hg.
Qed.

(** X12: on a card that already has a translation, the translate button only
    flips between the translation and the original: the stored translation is
    kept (no new batch is issued), and two presses restore the card. *)
Theorem cached_translation_toggles api_key gc order (mcq : MCQ) c tr :
  c.(translation) = Some tr ->
  (handleTranslate api_key gc order mcq c).(translation) = Some tr /\
  (handleTranslate api_key gc order mcq c).(showTranslation) = negb c.(showTranslation) /\
  handleTranslate api_key gc order mcq (handleTranslate api_key gc order mcq c) = c.
Proof.
  intros Hc. unfold handleTranslate. rewrite Hc. simpl. repeat split.
  rewrite negb_involutive. destruct c; simpl in *; by subst.
Qed.

(** X12, on a card showing its translation. *)
Lemma cached_translation_toggles_witness :
  let c := mkCard (Some (mkTranslation "q" ["a"; "b"; "c"; "d"])) false true in
  (handleTranslate None Claims6.demo_translator [] Claims3.demo_mcq c).(translation)
    = Some (mkTranslation "q" ["a"; "b"; "c"; "d"]) /\
  (handleTranslate None Claims6.demo_translator [] Claims3.demo_mcq c).(showTranslation)
    = negb c.(showTranslation) /\
  handleTranslate None Claims6.demo_translator [] Claims3.demo_mcq
    (handleTranslate None Claims6.demo_translator [] Claims3.demo_mcq c) = c.
Proof.
  exact (cached_translation_toggles None Claims6.demo_translator [] Claims3.demo_mcq
           (mkCard (Some (mkTranslation "q" ["a"; "b"; "c"; "d"])) false true)
           (mkTranslation "q" ["a"; "b"; "c"; "d"]) eq_refl).
Defined.

Lemma run_settlements_rejects {A} (settle : nat -> exn + A) order (slots : list (option A)) :
  (exists i e, In i order /\ settle i = inl e) ->
  exists e, run_settlements settle order slots = inl e.
Proof.
  revert slots. induction order as [|j order IH]; intros slots (i & e & Hi & He);
    [destruct Hi|].
  simpl. destruct (settle j) as [e'|v] eqn:Hj; [by exists e'|].
  destruct Hi as [->|Hi]; [congruence|].
  apply IH. by exists i, e.
Qed.

(** X13: without a configured key, translating a card whose question is not
    empty rejects the whole batch: the card gets no translation, stops showing
    the spinner and keeps its display state, whatever the completion order. *)
Theorem missing_key_leaves_card_untranslated api_key gc order (mcq : MCQ) c :
  ~ Claims6.key_present api_key -> mcq.(question) <> "" ->
  c.(translation) = None ->
  Permutation order (seq 0 (S (length mcq.(options)))) ->
  handleTranslate api_key gc order mcq c = mkCard None false c.(showTranslation).
Proof.
  intros Hk Hq Hc Hp. unfold handleTranslate, promise_all. rewrite Hc.
  destruct (run_settlements_rejects
              (fun i => snd (Gemini.translateText api_key (gc i)
                               (default "" (translate_requests mcq !! i))))
              order (replicate (length (translate_requests mcq)) None)) as [e He].
  { exists 0, (JsError Gemini.missing_key_message). split.
    - apply (Permutation_in _ (Permutation_sym Hp)). apply in_seq. lia.
    - simpl. by apply translateText_missing_key. }
  rewrite He. reflexivity.
Qed.

(** X13, with the demo card completing in reverse order. *)
Lemma missing_key_leaves_card_untranslated_witness :
  handleTranslate None Claims6.demo_translator [4; 3; 2; 1; 0] Claims3.demo_mcq
    (mkCard None false false) = mkCard None false false.
Proof.
  apply (missing_key_leaves_card_untranslated None Claims6.demo_translator [4; 3; 2; 1; 0]
           Claims3.demo_mcq (mkCard None false false)).
  - intros (k & Hk & _). discriminate.
  - discriminate.
  - reflexivity.
  - apply (bool_decide_unpack _). vm_compute. reflexivity.
Defined.

(** X14: with a configured key and no failure mentioning the key, translating a
    card always succeeds as a whole, whatever the completion order: the question
    and each option get their own call's result, and a failed call shows
    "Translation failed." in its own slot only. *)
Theorem translation_failures_stay_per_slot api_key gc order (mcq : MCQ) c :
  Claims6.key_present api_key ->
  (forall i r e, gc i r = inl e -> Gemini.is_api_key_error e = false) ->
  c.(translation) = None ->
  Permutation order (seq 0 (S (length mcq.(options)))) ->
  handleTranslate api_key gc order mcq c =
  mkCard (Some (mkTranslation (card_translation_of gc 0 mcq.(question))
                  (imap (fun j opt => card_translation_of gc (S j) opt) mcq.(options))))
         false true.
Proof. apply translate_batch_values. Qed.

(** A model that fails the call for the second option and answers the others. *)
Definition demo_flaky (i : nat) (r : Gemini.request) : exn + string :=
  if Nat.eqb i 2 then inl (JsError "fetch failed") else Claims6.demo_translator i r.

Lemma demo_flaky_no_key_error i r e :
  demo_flaky i r = inl e -> Gemini.is_api_key_error e = false.
Proof.
  unfold demo_flaky, Claims6.demo_translator.
  destruct (Nat.eqb i 2); [intros [= <-]; reflexivity|].
  destruct r; discriminate.
Qed.

(** X14, with the second option's call failing. *)
Lemma translation_failures_stay_per_slot_witness :
  handleTranslate (Some "key") demo_flaky [3; 0; 4; 2; 1] Claims3.demo_mcq (mkCard None false false) =
  mkCard (Some (mkTranslation (card_translation_of demo_flaky 0 Claims3.demo_mcq.(question))
                  (imap (fun j opt => card_translation_of demo_flaky (S j) opt)
                     Claims3.demo_mcq.(options))))
         false true.
Proof.
  apply translation_failures_stay_per_slot.
  - exists "key". split; [reflexivity|discriminate].
  - exact demo_flaky_no_key_error.
  - reflexivity.
  - apply (bool_decide_unpack _). vm_compute. reflexivity.
Defined.

Lemma indexOf_first (l : list string) x :
  In x l ->
  exists k, indexOf l x = Z.of_nat k /\ l !! k = Some x /\
            (forall j, j < k -> l !! j <> Some x).
Proof.
  induction l as [|y l IH]; intros Hin; [destruct Hin|]. simpl.
  destruct (String.eqb y x) eqn:Hy.
  - apply String.eqb_eq in Hy as ->. exists 0. split; [done|]. split; [done|lia].
  - apply String.eqb_neq in Hy. destruct Hin as [->|Hin]; [done|].
    destruct (IH Hin) as (k & Hk & Hl & Hf). rewrite Hk.
    replace (Z.ltb (Z.of_nat k) 0) with false by (symmetry; apply Z.ltb_ge; lia).
    exists (S k). split; [lia|]. split; [exact Hl|].
    intros [|j] Hj; simpl; [congruence|]. apply Hf. lia.
Qed.

(** X15: after a successful batch, the translated correct answer shown in study
    mode is the translation obtained for the first option equal to the answer. *)
Theorem translated_answer_is_first_match api_key gc order (mcq : MCQ) c :
  Claims6.key_present api_key ->
  (forall i r e, gc i r = inl e -> Gemini.is_api_key_error e = false) ->
  c.(translation) = None ->
  Permutation order (seq 0 (S (length mcq.(options)))) ->
  In mcq.(answer) mcq.(options) ->
  exists tr k,
    (handleTranslate api_key gc order mcq c).(translation) = Some tr /\
    mcq.(options) !! k = Some mcq.(answer) /\
    (forall j, j < k -> mcq.(options) !! j <> Some mcq.(answer)) /\
    translated_answer mcq tr = Some (card_translation_of gc (S k) mcq.(answer)).
Proof.
  intros Hk Hg Hc Hp Hin.
  rewrite (translate_batch_values api_key gc order mcq c Hk Hg Hc Hp).
  destruct (indexOf_first _ _ Hin) as (k & Hidx & Hl & Hf).
  eexists. exists k. split; [reflexivity|]. split; [exact Hl|]. split; [exact Hf|].
  unfold translated_answer, at_index. simpl. rewrite Hidx.
  replace (Z.ltb (Z.of_nat k) 0) with false by (symmetry; apply Z.ltb_ge; lia).
  rewrite Nat2Z.id, list_lookup_imap, Hl. reflexivity.
Qed.

(** X15, on the demo card. *)
Lemma translated_answer_is_first_match_witness :
  exists tr k,
    (handleTranslate (Some "key") Claims6.demo_translator [0; 1; 2; 3; 4] Claims3.demo_mcq
       (mkCard None false false)).(translation) = Some tr /\
    Claims3.demo_mcq.(options) !! k = Some Claims3.demo_mcq.(answer) /\
    (forall j, j < k -> Claims3.demo_mcq.(options) !! j <> Some Claims3.demo_mcq.(answer)) /\
    translated_answer Claims3.demo_mcq tr
      = Some (card_translation_of Claims6.demo_translator (S k) Claims3.demo_mcq.(answer)).
Proof.
  apply translated_answer_is_first_match.
  - exists "key". split; [reflexivity|discriminate].
  - intros i r e. unfold Claims6.demo_translator. destruct r; discriminate.
  - reflexivity.
  - apply (bool_decide_unpack _). vm_compute. reflexivity.
  - simpl. auto.
Defined.

End Extras.
